(** * aiobookoo: decoding of Bookoo scale notification frames

    A shallow embedding of [aiobookoo/decode.py] and the properties of its
    frame classification and field extraction.

    - A [bytearray] is a list of integers; Python keeps every element in
      [range(256)], which is [well_formed] here.
    - A Python [float] is an IEEE 754 binary64 number: Rocq's primitive
      [float], whose operations are the same correctly rounded ones.
    - Exceptions are values of [exn], threaded through the [result] monad;
      [try ... except Exception] is [try_except]. *)

From Stdlib Require Import String ZArith List Lia Bool.
From Stdlib Require Import Uint63 Floats.
Import ListNotations.

Local Open Scope Z_scope.

#[local] Set Warnings "-inexact-float".

(** ** Byte buffers *)

Definition bytearray := list Z.

Definition is_byte (b : Z) : Prop := 0 <= b < 256.

Definition well_formed (payload : bytearray) : Prop := Forall is_byte payload.

Definition len (payload : bytearray) : Z := Z.of_nat (length payload).

(** ** Exceptions and the result monad *)

Inductive exn : Type :=
| IndexError
| BookooMessageTooShort (bytes_recvd : bytearray)
| BookooMessageTooLong (bytes_recvd : bytearray)
| BookooMessageError (bytes_recvd : bytearray) (message : string).

Inductive result (A : Type) : Type :=
| Return (a : A)
| Raise (e : exn).

Arguments Return {A} a.
Arguments Raise {A} e.

Definition bind {A B : Type} (r : result A) (k : A -> result B) : result B :=
  match r with
  | Return a => k a
  | Raise e => Raise e
  end.

Notation "x <- c1 ;; c2" := (bind c1 (fun x => c2))
  (at level 61, c1 at next level, right associativity).

(** [try: body except Exception as ex: handler]. *)
Definition try_except {A : Type} (body : result A) (handler : exn -> result A)
  : result A :=
  match body with
  | Return a => Return a
  | Raise ex => handler ex
  end.

(** Python's short-circuit [a and b] on conditions that may raise. *)
Definition py_and (a b : result bool) : result bool :=
  x <- a ;; if x then b else Return false.

(** ** Sequence operations of Python *)

(** [payload[i]]: a negative index counts from the end, an index out of
    range raises [IndexError]. *)
Definition getitem (payload : bytearray) (i : Z) : result Z :=
  let j := if i <? 0 then i + len payload else i in
  if (j <? 0) || (len payload <=? j) then Raise IndexError
  else match nth_error payload (Z.to_nat j) with
       | Some b => Return b
       | None => Raise IndexError
       end.

(** A slice bound is clamped into [0, len]; a negative one counts from the
    end first. *)
Definition clamp (payload : bytearray) (i : Z) : nat :=
  Z.to_nat (if i <? 0 then Z.max (i + len payload) 0
            else Z.min i (len payload)).

(** [payload[start:stop]]; it never raises. *)
Definition slice (payload : bytearray) (start stop : Z) : bytearray :=
  firstn (clamp payload stop - clamp payload start)
         (skipn (clamp payload start) payload).

(** [int.from_bytes(bs, byteorder="big")]. *)
Definition int_from_bytes (bs : bytearray) : Z :=
  fold_left (fun acc b => acc * 256 + b) bs 0.

(** [int.from_bytes(bs, byteorder="big", signed=True)]: two's complement
    over [8 * len(bs)] bits. *)
Definition int_from_bytes_signed (bs : bytearray) : Z :=
  let u := int_from_bytes bs in
  let bits := 8 * len bs in
  if (0 <? bits) && (2 ^ (bits - 1) <=? u) then u - 2 ^ bits else u.

(** ** Floating point *)

(** The conversion of an [int] operand that Python performs before a true
    division or a product with a [float].  It is exact below [2^53]; the
    integers of this program are below [2^32]. *)
Definition float_of_int (z : Z) : float :=
  if z <? 0 then PrimFloat.opp (PrimFloat.of_uint63 (Uint63.of_Z (- z)))
  else PrimFloat.of_uint63 (Uint63.of_Z z).

(** ** The decoded record *)

(** The attributes of a [BookooMessage] object.  [None] in [timer],
    [weight], [flow_rate] and [flow_rate_smoothing] is Python's [None];
    [weight_symbol] and [flow_symbol] are set by [__init__] only, so they are
    [None] on an object that [decode_ultra_message] built with [__new__]. *)
Record BookooMessage : Type := {
  timer : option float;
  unit : Z;
  weight_symbol : option Z;
  weight : option float;
  flow_symbol : option Z;
  flow_rate : option float;
  battery : Z;
  standby_time : Z;
  buzzer_gear : Z;
  flow_rate_smoothing : option Z
}.

(** ** Mini scale message *)

(** The XOR of all the bytes of a buffer, from 0. *)
Definition xor_fold (bs : bytearray) : Z := fold_left Z.lxor bs 0.

(** [BookooMessage.__init__]. *)
Definition BookooMessage_init (payload : bytearray) : result BookooMessage :=
  let timer_ :=
    PrimFloat.div (float_of_int (int_from_bytes (slice payload 3 5))) 1000 in
  unit_ <- getitem payload 5 ;;
  b6 <- getitem payload 6 ;;
  let weight_symbol_ := if b6 =? 45 then -1 else 1 in
  let weight_ :=
    PrimFloat.mul
      (PrimFloat.div (float_of_int (int_from_bytes (slice payload 8 10))) 100)
      (float_of_int weight_symbol_) in
  b10 <- getitem payload 10 ;;
  let flow_symbol_ := if b10 =? 45 then -1 else 1 in
  let flow_rate_ :=
    PrimFloat.mul
      (PrimFloat.div (float_of_int (int_from_bytes (slice payload 12 13))) 100)
      (float_of_int flow_symbol_) in
  battery_ <- getitem payload 13 ;;
  standby_time_ <- getitem payload 14 ;;
  buzzer_gear_ <- getitem payload 16 ;;
  flow_rate_smoothing_ <- getitem payload 17 ;;
  let checksum := xor_fold (slice payload 0 (-1)) in
  last_ <- getitem payload (-1) ;;
  if negb (checksum =? last_)
  then Raise (BookooMessageError payload "Checksum mismatch")
  else Return {| timer := Some timer_;
                 unit := unit_;
                 weight_symbol := Some weight_symbol_;
                 weight := Some weight_;
                 flow_symbol := Some flow_symbol_;
                 flow_rate := Some flow_rate_;
                 battery := battery_;
                 standby_time := standby_time_;
                 buzzer_gear := buzzer_gear_;
                 flow_rate_smoothing := Some flow_rate_smoothing_ |}.

(** ** Ultra scale support *)

(** [is_ultra_message]. *)
Definition is_ultra_message (payload : bytearray) : result bool :=
  py_and (Return (len payload =? 20))
    (py_and (b0 <- getitem payload 0 ;; Return (b0 =? 0x55))
            (b1 <- getitem payload 1 ;; Return (b1 =? 0xAA))).

(** The body of the [try] block of [decode_ultra_message]. *)
Definition decode_ultra_body (payload : bytearray)
  : result (option BookooMessage * bytearray) :=
  let raw_weight := int_from_bytes_signed (slice payload 6 10) in
  let weight_ := PrimFloat.div (float_of_int raw_weight) 100 in
  battery_ <- getitem payload 14 ;;
  buzzer_gear_ <- getitem payload 15 ;;
  standby_time_ <- getitem payload 16 ;;
  Return (Some {| timer := None;
                  unit := 0;
                  weight_symbol := None;
                  weight := Some weight_;
                  flow_symbol := None;
                  flow_rate := None;
                  battery := battery_;
                  standby_time := standby_time_;
                  buzzer_gear := buzzer_gear_;
                  flow_rate_smoothing := None |},
          []).

(** [decode_ultra_message]. *)
Definition decode_ultra_message (payload : bytearray)
  : result (option BookooMessage * bytearray) :=
  try_except (decode_ultra_body payload)
             (fun _ => Return (None, payload)).

(** ** Decode entry point *)

Section Decode.

(** The two marker bytes of a Mini frame, imported from [const.py]. *)
Variables WEIGHT_BYTE1 WEIGHT_BYTE2 : Z.

(** The test [byte_msg[0] == WEIGHT_BYTE1 and byte_msg[1] == WEIGHT_BYTE2]. *)
Definition is_mini_message (byte_msg : bytearray) : result bool :=
  py_and (b0 <- getitem byte_msg 0 ;; Return (b0 =? WEIGHT_BYTE1))
         (b1 <- getitem byte_msg 1 ;; Return (b1 =? WEIGHT_BYTE2)).

(** [decode]. *)
Definition decode (byte_msg : bytearray)
  : result (option BookooMessage * bytearray) :=
  if len byte_msg <? 20 then Raise (BookooMessageTooShort byte_msg)
  else if 20 <? len byte_msg then Raise (BookooMessageTooLong byte_msg)
  else
    ultra <- is_ultra_message byte_msg ;;
    if ultra then decode_ultra_message byte_msg
    else
      mini <- is_mini_message byte_msg ;;
      if mini then
        msg <- BookooMessage_init byte_msg ;;
        Return (Some msg, [])
      else Return (None, byte_msg).

End Decode.

(** ** The frames and records of the specification *)

(** Byte [i] of a frame. *)
Definition byte_at (payload : bytearray) (i : nat) : Z := nth i payload 0.

(** The big-endian 16-bit unsigned integer of two bytes. *)
Definition uint16_be (hi lo : Z) : Z := 256 * hi + lo.

(** The big-endian 32-bit two's-complement integer of four bytes. *)
Definition int32_be (b3 b2 b1 b0 : Z) : Z :=
  let u := b3 * 2 ^ 24 + b2 * 2 ^ 16 + b1 * 2 ^ 8 + b0 in
  if u <? 2 ^ 31 then u else u - 2 ^ 32.

(** A value, negated exactly when the sign byte is ASCII [-]. *)
Definition signed_by (sign_byte : Z) (x : float) : float :=
  if sign_byte =? 0x2D then PrimFloat.opp x else x.

(** The record of a Mini frame, field by field. *)
Definition mini_record (payload : bytearray) : BookooMessage :=
  let b := byte_at payload in
  {| timer := Some (PrimFloat.div (float_of_int (uint16_be (b 3%nat) (b 4%nat))) 1000);
     unit := b 5%nat;
     weight_symbol := Some (if b 6%nat =? 0x2D then -1 else 1);
     weight :=
       Some (signed_by (b 6%nat)
               (PrimFloat.div (float_of_int (uint16_be (b 8%nat) (b 9%nat))) 100));
     flow_symbol := Some (if b 10%nat =? 0x2D then -1 else 1);
     flow_rate :=
       Some (signed_by (b 10%nat) (PrimFloat.div (float_of_int (b 12%nat)) 100));
     battery := b 13%nat;
     standby_time := b 14%nat;
     buzzer_gear := b 16%nat;
     flow_rate_smoothing := Some (b 17%nat) |}.

(** The record of an Ultra frame, field by field. *)
Definition ultra_record (payload : bytearray) : BookooMessage :=
  let b := byte_at payload in
  {| timer := None;
     unit := 0;
     weight_symbol := None;
     weight :=
       Some (PrimFloat.div
               (float_of_int (int32_be (b 6%nat) (b 7%nat) (b 8%nat) (b 9%nat)))
               100);
     flow_symbol := None;
     flow_rate := None;
     battery := b 14%nat;
     standby_time := b 16%nat;
     buzzer_gear := b 15%nat;
     flow_rate_smoothing := None |}.

(** The product by the sign, [1] or [-1], that [BookooMessage.__init__]
    computes. *)
Definition times_sign (sign_byte : Z) (x : float) : float :=
  PrimFloat.mul x (float_of_int (if sign_byte =? 45 then -1 else 1)).

(** The record [BookooMessage.__init__] builds, with the sign as the factor
    it multiplies by. *)
Definition computed_record (payload : bytearray) : BookooMessage :=
  let b := byte_at payload in
  {| timer := Some (PrimFloat.div (float_of_int (uint16_be (b 3%nat) (b 4%nat))) 1000);
     unit := b 5%nat;
     weight_symbol := Some (if b 6%nat =? 45 then -1 else 1);
     weight :=
       Some (times_sign (b 6%nat)
               (PrimFloat.div (float_of_int (uint16_be (b 8%nat) (b 9%nat))) 100));
     flow_symbol := Some (if b 10%nat =? 45 then -1 else 1);
     flow_rate :=
       Some (times_sign (b 10%nat) (PrimFloat.div (float_of_int (b 12%nat)) 100));
     battery := b 13%nat;
     standby_time := b 14%nat;
     buzzer_gear := b 16%nat;
     flow_rate_smoothing := Some (b 17%nat) |}.

(** The two facts about the sign factor, decided on one integer: the
    product of its hundredths by [-1] is their negation, and the product by
    [1] changes nothing. *)
Definition sign_check (n : Z) : bool :=
  let x := PrimFloat.div (float_of_int n) 100 in
  PrimFloat.Leibniz.eqb (PrimFloat.mul x (float_of_int (-1))) (PrimFloat.opp x)
  && PrimFloat.Leibniz.eqb (PrimFloat.mul x (float_of_int 1)) x.

(** The integers of [range(256)]. *)
Definition all_bytes : list Z := map Z.of_nat (seq 0 256).

(** The checksum of a Mini frame is valid: the XOR of all its bytes except
    the last one is the last one. *)
Definition checksum_ok (payload : bytearray) : Prop :=
  xor_fold (removelast payload) = last payload 0.

(** [f] applied to element [i] of a list; nothing out of range. *)
Fixpoint update (l : bytearray) (i : nat) (f : Z -> Z) : bytearray :=
  match l, i with
  | [], _ => []
  | b :: l', O => f b :: l'
  | b :: l', S i' => b :: update l' i' f
  end.

(** [payload[i] ^= 1 << k]: bit [k] of byte [i] flipped. *)
Definition flip_bit (payload : bytearray) (i : nat) (k : Z) : bytearray :=
  update payload i (fun b => Z.lxor b (Z.shiftl 1 k)).

(** Sample marker bytes and frames. *)
Definition sample_byte1 : Z := 0x03.
Definition sample_byte2 : Z := 0x0B.

Definition mini_frame : bytearray :=
  [0x03; 0x0B; 0; 0x0A; 0x00; 1; 43; 0; 0x30; 0x39;
   45; 0; 150; 87; 5; 0; 2; 1; 0; 203].

Definition mini_frame_neg : bytearray :=
  [0x03; 0x0B; 0; 0x0A; 0x00; 1; 45; 0; 0x30; 0x39;
   45; 0; 150; 87; 5; 0; 2; 1; 0; 205].

Definition ultra_frame_m10000 : bytearray :=
  [0x55; 0xAA; 0; 0; 0; 0; 0xFF; 0xFF; 0xD8; 0xF0;
   0; 0; 0; 0; 80; 3; 10; 0; 0; 0].

Definition ultra_frame_m9999 : bytearray :=
  [0x55; 0xAA; 0; 0; 0; 0; 0xFF; 0xFF; 0xD8; 0xF1;
   0; 0; 0; 0; 80; 3; 10; 0; 0; 0].

Definition unknown_frame : bytearray :=
  [0x01; 0x02; 0; 0; 0; 0; 0; 0; 0; 0; 0; 0; 0; 0; 0; 0; 0; 0; 0; 0].

(** An Ultra buffer cut after sixteen bytes: index 16 is out of range. *)
Definition ultra_truncated : bytearray :=
  [0x55; 0xAA; 0; 0; 0; 0; 0xFF; 0xFF; 0xD8; 0xF0; 0; 0; 0; 0; 80; 3].

(** ** Ranges of the Mini fields *)

(** The bounds of the timer and of the weight of a Mini frame, decided on the
    two bytes of a 16-bit integer: the thousandths lie in [0, 65.535], the
    hundredths and their negation in [-655.35, 655.35], on the side of zero
    that the sign gives. *)
Definition mini_bounds_check (hi lo : Z) : bool :=
  let n := float_of_int (uint16_be hi lo) in
  let t := PrimFloat.div n 1000 in
  let w := PrimFloat.div n 100 in
  PrimFloat.leb 0 t && PrimFloat.leb t 65.535
  && PrimFloat.leb 0 w && PrimFloat.leb w 655.35
  && PrimFloat.leb (-655.35) w
  && PrimFloat.leb (PrimFloat.opp w) 0
  && PrimFloat.leb (-655.35) (PrimFloat.opp w)
  && PrimFloat.leb (PrimFloat.opp w) 655.35.

(** The bounds of the flow rate, decided on its one byte. *)
Definition flow_bounds_check (b : Z) : bool :=
  let f := PrimFloat.div (float_of_int b) 100 in
  PrimFloat.leb 0 f && PrimFloat.leb f 2.55
  && PrimFloat.leb (-2.55) f
  && PrimFloat.leb (PrimFloat.opp f) 0
  && PrimFloat.leb (-2.55) (PrimFloat.opp f)
  && PrimFloat.leb (PrimFloat.opp f) 2.55.

(** The offsets an Ultra frame carries and [decode_ultra_message] never
    reads. *)
Definition ultra_unread : list nat :=
  [2; 3; 4; 5; 10; 11; 12; 13; 17; 18; 19]%nat.

(** A buffer of twenty-one bytes with a valid XOR checksum and no marker. *)
Definition long_buffer : bytearray :=
  [9; 9; 0; 0x0A; 0x00; 1; 43; 0; 0x30; 0x39;
   45; 0; 150; 87; 5; 0; 2; 1; 0; 7; 196].

(** A Mini frame of weight zero under the sign byte [-]. *)
Definition mini_frame_zero : bytearray :=
  [0x03; 0x0B; 0; 0x0A; 0x00; 1; 45; 0; 0; 0;
   45; 0; 150; 87; 5; 0; 2; 1; 0; 196].

(** The first nineteen bytes of the sample Mini frame. *)
Definition mini_body : bytearray :=
  [0x03; 0x0B; 0; 0x0A; 0x00; 1; 43; 0; 0x30; 0x39;
   45; 0; 150; 87; 5; 0; 2; 1; 0].

(** * Properties *)

(** ** Buffers of twenty bytes *)

Lemma length20_inv (p : bytearray) :
  length p = 20%nat ->
  exists b0 b1 b2 b3 b4 b5 b6 b7 b8 b9
         b10 b11 b12 b13 b14 b15 b16 b17 b18 b19,
    p = [b0; b1; b2; b3; b4; b5; b6; b7; b8; b9;
         b10; b11; b12; b13; b14; b15; b16; b17; b18; b19].
Proof.
  intros H.
  do 20 (destruct p as [|? p]; [discriminate H|]).
  destruct p; [|discriminate H].
  repeat eexists.
Qed.

Ltac explode p H :=
  let b0 := fresh "b0" in
  destruct (length20_inv p H)
    as (b0 & b1 & b2 & b3 & b4 & b5 & b6 & b7 & b8 & b9 & b10 & b11 & b12
        & b13 & b14 & b15 & b16 & b17 & b18 & b19 & ->).

Lemma len_20 (p : bytearray) : length p = 20%nat -> len p = 20.
Proof. unfold len; intros ->; reflexivity. Qed.

(** ** Integers from bytes *)

Lemma int_from_bytes_2 (hi lo : Z) :
  int_from_bytes [hi; lo] = uint16_be hi lo.
Proof. unfold int_from_bytes, uint16_be; cbn [fold_left]; lia. Qed.

Lemma int_from_bytes_1 (b : Z) : int_from_bytes [b] = b.
Proof. unfold int_from_bytes; cbn [fold_left]; lia. Qed.

Lemma int_from_bytes_signed_4 (b3 b2 b1 b0 : Z) :
  int_from_bytes_signed [b3; b2; b1; b0] = int32_be b3 b2 b1 b0.
Proof.
  unfold int_from_bytes_signed, int32_be, int_from_bytes, len.
  cbn [fold_left length].
  change (8 * Z.of_nat 4) with 32.
  change (0 <? 32) with true.
  change (32 - 1) with 31.
  cbn [andb].
  replace ((((0 * 256 + b3) * 256 + b2) * 256 + b1) * 256 + b0)
    with (b3 * 2 ^ 24 + b2 * 2 ^ 16 + b1 * 2 ^ 8 + b0) by lia.
  destruct (Z.leb_spec (2 ^ 31) (b3 * 2 ^ 24 + b2 * 2 ^ 16 + b1 * 2 ^ 8 + b0));
    destruct (Z.ltb_spec (b3 * 2 ^ 24 + b2 * 2 ^ 16 + b1 * 2 ^ 8 + b0) (2 ^ 31));
    try reflexivity; lia.
Qed.

(** The raw Ultra weight of well-formed bytes is a 32-bit signed integer,
    where [float_of_int] is exact. *)
Lemma int32_be_range (b3 b2 b1 b0 : Z) :
  is_byte b3 -> is_byte b2 -> is_byte b1 -> is_byte b0 ->
  - 2 ^ 31 <= int32_be b3 b2 b1 b0 < 2 ^ 31.
Proof.
  unfold is_byte, int32_be; intros.
  cbv zeta.
  destruct (Z.ltb_spec (b3 * 2 ^ 24 + b2 * 2 ^ 16 + b1 * 2 ^ 8 + b0) (2 ^ 31));
    lia.
Qed.

(** ** The sign factor of a Mini frame *)

Lemma in_all_bytes (b : Z) : is_byte b -> In b all_bytes.
Proof.
  unfold is_byte, all_bytes; intros Hb.
  rewrite <- (Z2Nat.id b) by lia.
  apply in_map, in_seq. lia.
Qed.

Lemma sign_check_all :
  forallb (fun hi => forallb (fun lo => sign_check (uint16_be hi lo)) all_bytes)
          all_bytes = true.
Proof. vm_compute. reflexivity. Qed.

Lemma sign_check_bytes (hi lo : Z) :
  is_byte hi -> is_byte lo -> sign_check (uint16_be hi lo) = true.
Proof.
  intros Hhi Hlo.
  pose proof (proj1 (forallb_forall _ _) sign_check_all hi (in_all_bytes hi Hhi))
    as H.
  cbv beta in H.
  exact (proj1 (forallb_forall _ _) H lo (in_all_bytes lo Hlo)).
Qed.

(** Over the hundredths of a 16-bit integer, the product by the sign is the
    negation, or nothing. *)
Lemma times_sign_signed_by (sign_byte hi lo : Z) :
  is_byte hi -> is_byte lo ->
  times_sign sign_byte (PrimFloat.div (float_of_int (uint16_be hi lo)) 100)
  = signed_by sign_byte (PrimFloat.div (float_of_int (uint16_be hi lo)) 100).
Proof.
  intros Hhi Hlo. pose proof (sign_check_bytes hi lo Hhi Hlo) as Hc.
  unfold sign_check in Hc. cbv zeta in Hc.
  apply andb_true_iff in Hc. destruct Hc as [Hneg Hpos].
  apply FloatAxioms.Leibniz.eqb_spec in Hneg.
  apply FloatAxioms.Leibniz.eqb_spec in Hpos.
  unfold times_sign, signed_by.
  change 0x2D with 45.
  destruct (sign_byte =? 45); assumption.
Qed.

(** ** Evaluation on twenty bytes *)

Ltac eval_seq_ops :=
  repeat match goal with
    | |- context [getitem ?l ?i] =>
        let r := eval cbv in (getitem l i) in change (getitem l i) with r
    | |- context [slice ?l ?i ?j] =>
        let r := eval cbv in (slice l i j) in change (slice l i j) with r
    | |- context [removelast ?l] =>
        let r := eval cbv in (removelast l) in change (removelast l) with r
    | |- context [last ?l 0] =>
        let r := eval cbv in (last l 0) in change (last l 0) with r
    | |- context [byte_at ?l ?i] =>
        let r := eval cbv in (byte_at l i) in change (byte_at l i) with r
    end.

Lemma BookooMessage_init_20 (p : bytearray) :
  length p = 20%nat ->
  BookooMessage_init p =
  if xor_fold (removelast p) =? last p 0
  then Return (computed_record p)
  else Raise (BookooMessageError p "Checksum mismatch").
Proof.
  intros H. explode p H.
  unfold BookooMessage_init, computed_record.
  eval_seq_ops.
  cbn [bind].
  rewrite !int_from_bytes_2, int_from_bytes_1.
  cbv zeta. unfold times_sign.
  destruct (xor_fold _ =? b19); reflexivity.
Qed.

Lemma computed_record_mini_record (p : bytearray) :
  length p = 20%nat -> well_formed p -> computed_record p = mini_record p.
Proof.
  intros H Hwf. explode p H.
  unfold well_formed in Hwf.
  repeat match goal with
    | H : Forall _ (_ :: _) |- _ => apply Forall_cons_iff in H; destruct H
    end.
  unfold computed_record, mini_record.
  eval_seq_ops. cbv zeta.
  rewrite times_sign_signed_by by assumption.
  assert (Hflow : b12 = uint16_be 0 b12) by (unfold uint16_be; lia).
  rewrite Hflow at 1 2.
  rewrite times_sign_signed_by by (unfold is_byte in *; first [assumption | lia]).
  rewrite <- Hflow.
  reflexivity.
Qed.

Lemma decode_ultra_body_20 (p : bytearray) :
  length p = 20%nat ->
  decode_ultra_body p = Return (Some (ultra_record p), []).
Proof.
  intros H. explode p H.
  unfold decode_ultra_body, ultra_record.
  eval_seq_ops.
  cbn [bind]. cbv zeta.
  rewrite int_from_bytes_signed_4.
  reflexivity.
Qed.

Lemma decode_ultra_message_20 (p : bytearray) :
  length p = 20%nat ->
  decode_ultra_message p = Return (Some (ultra_record p), []).
Proof.
  intros H. unfold decode_ultra_message.
  rewrite (decode_ultra_body_20 p H). reflexivity.
Qed.

Lemma is_ultra_message_20 (p : bytearray) :
  length p = 20%nat ->
  is_ultra_message p
  = Return ((byte_at p 0 =? 0x55) && (byte_at p 1 =? 0xAA)).
Proof.
  intros H. explode p H.
  unfold is_ultra_message, py_and.
  eval_seq_ops.
  change (len _ =? 20) with true.
  cbn [bind].
  destruct (b0 =? 85); reflexivity.
Qed.

Lemma is_mini_message_20 (W1 W2 : Z) (p : bytearray) :
  length p = 20%nat ->
  is_mini_message W1 W2 p
  = Return ((byte_at p 0 =? W1) && (byte_at p 1 =? W2)).
Proof.
  intros H. explode p H.
  unfold is_mini_message, py_and.
  eval_seq_ops.
  cbn [bind].
  destruct (b0 =? W1); reflexivity.
Qed.

(** The dispatch of [decode] on a buffer of twenty bytes. *)
Lemma decode_20 (W1 W2 : Z) (p : bytearray) :
  length p = 20%nat ->
  decode W1 W2 p =
  if (byte_at p 0 =? 0x55) && (byte_at p 1 =? 0xAA)
  then decode_ultra_message p
  else if (byte_at p 0 =? W1) && (byte_at p 1 =? W2)
       then msg <- BookooMessage_init p ;; Return (Some msg, [])
       else Return (None, p).
Proof.
  intros H. unfold decode.
  rewrite (len_20 p H).
  change (20 <? 20) with false. cbv iota.
  rewrite (is_ultra_message_20 p H), (is_mini_message_20 W1 W2 p H).
  cbn [bind]. reflexivity.
Qed.

(** ** Markers *)

Lemma mini_marker_not_ultra (W1 W2 : Z) (p : bytearray) :
  (W1, W2) <> (0x55, 0xAA) ->
  byte_at p 0 = W1 -> byte_at p 1 = W2 ->
  (byte_at p 0 =? 0x55) && (byte_at p 1 =? 0xAA) = false.
Proof.
  intros Hne H0 H1.
  apply andb_false_iff.
  destruct (Z.eqb_spec (byte_at p 0) 0x55) as [E0|]; [|now left].
  destruct (Z.eqb_spec (byte_at p 1) 0xAA) as [E1|]; [|now right].
  exfalso. apply Hne. congruence.
Qed.

Lemma markers_match (a b x y : Z) :
  a = x -> b = y -> (a =? x) && (b =? y) = true.
Proof. intros -> ->. now rewrite !Z.eqb_refl. Qed.

Lemma markers_mismatch (a b x y : Z) :
  ~ (a = x /\ b = y) -> (a =? x) && (b =? y) = false.
Proof.
  intros H. apply andb_false_iff.
  destruct (Z.eqb_spec a x); [|now left].
  destruct (Z.eqb_spec b y); [|now right].
  exfalso; auto.
Qed.

(** The decoding of a frame that carries the Mini marker and not the Ultra
    one. *)
Lemma decode_mini (W1 W2 : Z) (p : bytearray) :
  (W1, W2) <> (0x55, 0xAA) ->
  length p = 20%nat ->
  byte_at p 0 = W1 -> byte_at p 1 = W2 ->
  decode W1 W2 p =
  if xor_fold (removelast p) =? last p 0
  then Return (Some (computed_record p), [])
  else Raise (BookooMessageError p "Checksum mismatch").
Proof.
  intros Hne H H0 H1.
  rewrite (decode_20 W1 W2 p H).
  rewrite (mini_marker_not_ultra W1 W2 p Hne H0 H1).
  rewrite (markers_match _ _ _ _ H0 H1).
  rewrite (BookooMessage_init_20 p H).
  destruct (xor_fold _ =? last p 0); reflexivity.
Qed.

(** ** A byte changed in place *)

Lemma update_length (l : bytearray) (i : nat) (f : Z -> Z) :
  length (update l i f) = length l.
Proof.
  revert i; induction l as [|b l IH]; intros [|i]; cbn; auto.
Qed.

Lemma nth_update_neq (l : bytearray) (i j : nat) (f : Z -> Z) (d : Z) :
  i <> j -> nth j (update l i f) d = nth j l d.
Proof.
  revert i j; induction l as [|b l IH]; intros [|i] [|j] Hij; cbn; auto.
  - contradiction.
Qed.

Lemma nth_update_eq (l : bytearray) (i : nat) (f : Z -> Z) (d : Z) :
  (i < length l)%nat -> nth i (update l i f) d = f (nth i l d).
Proof.
  revert i; induction l as [|b l IH]; intros [|i] Hi; cbn in *;
    try lia; auto.
  apply IH. lia.
Qed.

Lemma removelast_update (l : bytearray) (i : nat) (f : Z -> Z) :
  (S i < length l)%nat ->
  removelast (update l i f) = update (removelast l) i f.
Proof.
  revert i; induction l as [|b l IH]; intros i Hi; [cbn in Hi; lia|].
  destruct l as [|c l]; [cbn in Hi; lia|].
  destruct i as [|i]; [reflexivity|].
  change (removelast (b :: update (c :: l) i f)
          = b :: update (removelast (c :: l)) i f).
  rewrite <- IH by (cbn in *; lia).
  destruct i; reflexivity.
Qed.

Lemma last_update (l : bytearray) (i : nat) (f : Z -> Z) (d : Z) :
  (S i < length l)%nat -> last (update l i f) d = last l d.
Proof.
  revert i; induction l as [|b l IH]; intros i Hi; [cbn in Hi; lia|].
  destruct l as [|c l]; [cbn in Hi; lia|].
  destruct i as [|i]; [reflexivity|].
  change (last (b :: update (c :: l) i f) d = last (c :: l) d).
  rewrite <- (IH i) by (cbn in *; lia).
  destruct i; reflexivity.
Qed.

Lemma fold_lxor_acc (l : bytearray) (a : Z) :
  fold_left Z.lxor l a = Z.lxor a (xor_fold l).
Proof.
  unfold xor_fold. revert a.
  induction l as [|b l IH]; intros a; cbn [fold_left].
  - now rewrite Z.lxor_0_r.
  - rewrite (IH (Z.lxor a b)), (IH (Z.lxor 0 b)).
    now rewrite Z.lxor_0_l, Z.lxor_assoc.
Qed.

Lemma xor_fold_cons (b : Z) (l : bytearray) :
  xor_fold (b :: l) = Z.lxor b (xor_fold l).
Proof.
  unfold xor_fold at 1. cbn [fold_left].
  now rewrite fold_lxor_acc, Z.lxor_0_l.
Qed.

(** A byte XORed with [m] XORs the checksum with [m]. *)
Lemma xor_fold_update (l : bytearray) (i : nat) (m : Z) :
  (i < length l)%nat ->
  xor_fold (update l i (fun b => Z.lxor b m)) = Z.lxor (xor_fold l) m.
Proof.
  revert i; induction l as [|b l IH]; intros i Hi; [cbn in Hi; lia|].
  destruct i as [|i]; cbn [update]; rewrite !xor_fold_cons.
  - now rewrite !Z.lxor_assoc, (Z.lxor_comm m).
  - rewrite IH by (cbn in Hi; lia). now rewrite Z.lxor_assoc.
Qed.

Lemma lxor_bit_neq (c k : Z) : 0 <= k -> Z.lxor c (Z.shiftl 1 k) <> c.
Proof.
  intros Hk E.
  assert (H : Z.lxor (Z.lxor c (Z.shiftl 1 k)) c = 0)
    by (rewrite E; apply Z.lxor_nilpotent).
  rewrite (Z.lxor_comm c), Z.lxor_assoc, Z.lxor_nilpotent, Z.lxor_0_r in H.
  apply Z.shiftl_eq_0_iff in H; [discriminate H | exact Hk].
Qed.

(** A flipped bit among the first nineteen bytes breaks a valid checksum. *)
Lemma flip_bit_checksum (p : bytearray) (i : nat) (k : Z) :
  length p = 20%nat -> checksum_ok p -> (i < 19)%nat -> 0 <= k ->
  (xor_fold (removelast (flip_bit p i k)) =? last (flip_bit p i k) 0) = false.
Proof.
  unfold checksum_ok, flip_bit. intros H Hok Hi Hk.
  rewrite removelast_update, last_update by lia.
  rewrite xor_fold_update.
  - rewrite Hok. apply Z.eqb_neq, lxor_bit_neq, Hk.
  - assert (Hl : length (removelast p) = 19%nat).
    { explode p H. reflexivity. }
    lia.
Qed.

Lemma well_formed_mini_frame : well_formed mini_frame.
Proof. repeat constructor; unfold is_byte; lia. Qed.

Lemma sample_markers_not_ultra :
  (sample_byte1, sample_byte2) <> (0x55, 0xAA).
Proof. discriminate. Qed.

(** ** The Mini decoder *)

(** C1: a 20-byte frame with the Mini marker and a valid checksum decodes to
    the record whose timer is the 16-bit big-endian integer of bytes 3-4 over
    1000.0, unit byte 5, weight the 16-bit big-endian integer of bytes 8-9
    over 100.0, negated exactly when byte 6 is 0x2D, flow rate byte 12 over
    100.0, negated exactly when byte 10 is 0x2D, battery byte 13, standby
    time byte 14, buzzer gear byte 16 and flow-rate smoothing byte 17, with
    no leftover; weight bytes encoding 12345 give 123.45, and -123.45 under a
    [-] sign byte.  The Mini marker is not the Ultra one. *)
Theorem C1_mini_fields (W1 W2 : Z) (payload : bytearray) :
  (W1, W2) <> (0x55, 0xAA) ->
  well_formed payload ->
  length payload = 20%nat ->
  byte_at payload 0 = W1 -> byte_at payload 1 = W2 ->
  checksum_ok payload ->
  decode W1 W2 payload = Return (Some (mini_record payload), [])
  /\ (uint16_be (byte_at payload 8) (byte_at payload 9) = 12345 ->
      weight (mini_record payload)
      = Some (if byte_at payload 6 =? 0x2D
              then (-123.45)%float else 123.45%float)).
Proof.
  intros Hne Hwf H H0 H1 Hok. split.
  - rewrite (decode_mini W1 W2 payload Hne H H0 H1).
    unfold checksum_ok in Hok. rewrite Hok, Z.eqb_refl.
    now rewrite (computed_record_mini_record payload H Hwf).
  - intros Hw. unfold mini_record, weight, signed_by. rewrite Hw.
    destruct (byte_at payload 6 =? 0x2D); reflexivity.
Qed.

Lemma C1_mini_fields_witness :
  decode sample_byte1 sample_byte2 mini_frame
  = Return (Some (mini_record mini_frame), [])
  /\ (uint16_be (byte_at mini_frame 8) (byte_at mini_frame 9) = 12345 ->
      weight (mini_record mini_frame)
      = Some (if byte_at mini_frame 6 =? 0x2D
              then (-123.45)%float else 123.45%float)).
Proof.
  apply (C1_mini_fields sample_byte1 sample_byte2 mini_frame).
  - exact sample_markers_not_ultra.
  - exact well_formed_mini_frame.
  - reflexivity.
  - reflexivity.
  - reflexivity.
  - reflexivity.
Defined.

(** C4: a 20-byte frame with the Mini marker decodes successfully exactly
    when the XOR of all its bytes but the last is the last byte; otherwise
    [decode] raises the checksum error, which carries the frame, and returns
    no record.  The Mini marker is not the Ultra one. *)
Theorem C4_checksum_gate (W1 W2 : Z) (payload : bytearray) :
  (W1, W2) <> (0x55, 0xAA) ->
  length payload = 20%nat ->
  byte_at payload 0 = W1 -> byte_at payload 1 = W2 ->
  ((exists r, decode W1 W2 payload = Return r) <-> checksum_ok payload)
  /\ (checksum_ok payload ->
      decode W1 W2 payload = Return (Some (computed_record payload), []))
  /\ (~ checksum_ok payload ->
      decode W1 W2 payload
      = Raise (BookooMessageError payload "Checksum mismatch")).
Proof.
  intros Hne H H0 H1.
  rewrite (decode_mini W1 W2 payload Hne H H0 H1).
  unfold checksum_ok.
  destruct (Z.eqb_spec (xor_fold (removelast payload)) (last payload 0))
    as [E|N].
  - repeat split; auto.
    + now eexists.
    + intros C; contradiction.
  - repeat split; auto.
    + intros [r Hr]; discriminate Hr.
    + intros C; contradiction.
    + intros C; contradiction.
Qed.

Lemma C4_checksum_gate_witness :
  ((exists r, decode sample_byte1 sample_byte2 mini_frame = Return r)
   <-> checksum_ok mini_frame)
  /\ (checksum_ok mini_frame ->
      decode sample_byte1 sample_byte2 mini_frame
      = Return (Some (computed_record mini_frame), []))
  /\ (~ checksum_ok mini_frame ->
      decode sample_byte1 sample_byte2 mini_frame
      = Raise (BookooMessageError mini_frame "Checksum mismatch")).
Proof.
  apply (C4_checksum_gate sample_byte1 sample_byte2 mini_frame).
  - exact sample_markers_not_ultra.
  - reflexivity.
  - reflexivity.
  - reflexivity.
Defined.

(** C9 (as amended): in a valid Mini frame, one flipped bit in any of bytes
    0 to 18, the checksum byte left alone, makes [BookooMessage.__init__]
    raise the checksum error; [decode] raises it for a flip in bytes 2 to 18,
    while a flip in byte 0 or 1 destroys the Mini marker, so that [decode]
    raises nothing and returns the frame undecoded, or an Ultra record when
    the corrupted frame starts with 0x55 0xAA. *)
Theorem C9_bit_flip (W1 W2 : Z) (payload : bytearray) (i : nat) (k : Z) :
  (W1, W2) <> (0x55, 0xAA) ->
  length payload = 20%nat ->
  byte_at payload 0 = W1 -> byte_at payload 1 = W2 ->
  checksum_ok payload ->
  (i < 19)%nat -> 0 <= k < 8 ->
  BookooMessage_init (flip_bit payload i k)
  = Raise (BookooMessageError (flip_bit payload i k) "Checksum mismatch")
  /\ ((2 <= i)%nat ->
      decode W1 W2 (flip_bit payload i k)
      = Raise (BookooMessageError (flip_bit payload i k) "Checksum mismatch"))
  /\ ((i < 2)%nat ->
      decode W1 W2 (flip_bit payload i k)
      = if (byte_at (flip_bit payload i k) 0 =? 0x55)
           && (byte_at (flip_bit payload i k) 1 =? 0xAA)
        then Return (Some (ultra_record (flip_bit payload i k)), [])
        else Return (None, flip_bit payload i k)).
Proof.
  intros Hne H H0 H1 Hok Hi Hk.
  assert (H' : length (flip_bit payload i k) = 20%nat)
    by (unfold flip_bit; now rewrite update_length).
  assert (Hbad := flip_bit_checksum payload i k H Hok Hi (proj1 Hk)).
  split; [|split].
  - rewrite (BookooMessage_init_20 _ H'), Hbad. reflexivity.
  - intros Hi2.
    rewrite (decode_mini W1 W2 (flip_bit payload i k) Hne H'), Hbad.
    + reflexivity.
    + unfold byte_at, flip_bit. rewrite nth_update_neq by lia. exact H0.
    + unfold byte_at, flip_bit. rewrite nth_update_neq by lia. exact H1.
  - intros Hi2.
    rewrite (decode_20 W1 W2 _ H'), (decode_ultra_message_20 _ H').
    rewrite (markers_mismatch (byte_at (flip_bit payload i k) 0) _ W1 W2).
    + reflexivity.
    + unfold byte_at, flip_bit. intros [E0 E1].
      destruct i as [|[|i]]; [| |lia].
      * rewrite nth_update_eq in E0 by lia.
        fold (byte_at payload 0) in E0. rewrite H0 in E0.
        exact (lxor_bit_neq W1 k (proj1 Hk) E0).
      * rewrite nth_update_eq in E1 by lia.
        fold (byte_at payload 1) in E1. rewrite H1 in E1.
        exact (lxor_bit_neq W2 k (proj1 Hk) E1).
Qed.

Lemma C9_bit_flip_witness :
  BookooMessage_init (flip_bit mini_frame 7 3)
  = Raise (BookooMessageError (flip_bit mini_frame 7 3) "Checksum mismatch")
  /\ ((2 <= 7)%nat ->
      decode sample_byte1 sample_byte2 (flip_bit mini_frame 7 3)
      = Raise (BookooMessageError (flip_bit mini_frame 7 3) "Checksum mismatch"))
  /\ ((7 < 2)%nat ->
      decode sample_byte1 sample_byte2 (flip_bit mini_frame 7 3)
      = if (byte_at (flip_bit mini_frame 7 3) 0 =? 0x55)
           && (byte_at (flip_bit mini_frame 7 3) 1 =? 0xAA)
        then Return (Some (ultra_record (flip_bit mini_frame 7 3)), [])
        else Return (None, flip_bit mini_frame 7 3)).
Proof.
  apply (C9_bit_flip sample_byte1 sample_byte2 mini_frame 7 3).
  - exact sample_markers_not_ultra.
  - reflexivity.
  - reflexivity.
  - reflexivity.
  - reflexivity.
  - lia.
  - lia.
Defined.

(** C9 as stated fails: the sample frame is a valid Mini frame, and with
    bit 0 of its byte 0 flipped [decode] raises no checksum error: it
    returns the frame undecoded. *)
Lemma C9_counterexample :
  length mini_frame = 20%nat
  /\ byte_at mini_frame 0 = sample_byte1
  /\ byte_at mini_frame 1 = sample_byte2
  /\ checksum_ok mini_frame
  /\ decode sample_byte1 sample_byte2 mini_frame
     = Return (Some (mini_record mini_frame), [])
  /\ decode sample_byte1 sample_byte2 (flip_bit mini_frame 0 0)
     = Return (None, flip_bit mini_frame 0 0).
Proof. repeat split. Qed.

(** ** The Ultra decoder *)

(** C2: a 20-byte frame that starts with 0x55 0xAA decodes to the record
    whose weight is the big-endian 32-bit two's-complement integer of bytes
    6-9 over 100.0, battery byte 14, buzzer gear byte 15, standby time
    byte 16, unit 0, and whose timer, flow rate and flow-rate smoothing are
    [None], with no leftover. *)
Theorem C2_ultra_fields (W1 W2 : Z) (payload : bytearray) :
  length payload = 20%nat ->
  byte_at payload 0 = 0x55 -> byte_at payload 1 = 0xAA ->
  exists msg,
    decode W1 W2 payload = Return (Some msg, [])
    /\ weight msg
       = Some (PrimFloat.div
                 (float_of_int (int32_be (byte_at payload 6) (byte_at payload 7)
                                         (byte_at payload 8) (byte_at payload 9)))
                 100)
    /\ battery msg = byte_at payload 14
    /\ buzzer_gear msg = byte_at payload 15
    /\ standby_time msg = byte_at payload 16
    /\ unit msg = 0
    /\ timer msg = None
    /\ flow_rate msg = None
    /\ flow_rate_smoothing msg = None.
Proof.
  intros H H0 H1.
  exists (ultra_record payload).
  rewrite (decode_20 W1 W2 payload H), (markers_match _ _ _ _ H0 H1).
  rewrite (decode_ultra_message_20 payload H).
  repeat split.
Qed.

Lemma C2_ultra_fields_witness :
  exists msg,
    decode sample_byte1 sample_byte2 ultra_frame_m10000 = Return (Some msg, [])
    /\ weight msg
       = Some (PrimFloat.div
                 (float_of_int
                    (int32_be (byte_at ultra_frame_m10000 6)
                              (byte_at ultra_frame_m10000 7)
                              (byte_at ultra_frame_m10000 8)
                              (byte_at ultra_frame_m10000 9)))
                 100)
    /\ battery msg = byte_at ultra_frame_m10000 14
    /\ buzzer_gear msg = byte_at ultra_frame_m10000 15
    /\ standby_time msg = byte_at ultra_frame_m10000 16
    /\ unit msg = 0
    /\ timer msg = None
    /\ flow_rate msg = None
    /\ flow_rate_smoothing msg = None.
Proof.
  apply (C2_ultra_fields sample_byte1 sample_byte2 ultra_frame_m10000).
  - reflexivity.
  - reflexivity.
  - reflexivity.
Defined.

(** C6 (as amended): in a 20-byte Ultra frame, the bytes 0xFF 0xFF 0xD8 0xF0
    at offsets 6 to 9 are -10000 and decode to the weight -100.0; the bytes
    0xFF 0xFF 0xD8 0xF1 are -9999 and decode to -99.99. *)
Theorem C6_ultra_negative_weight (W1 W2 : Z) (payload : bytearray) :
  length payload = 20%nat ->
  byte_at payload 0 = 0x55 -> byte_at payload 1 = 0xAA ->
  (slice payload 6 10 = [0xFF; 0xFF; 0xD8; 0xF0] ->
   int_from_bytes_signed (slice payload 6 10) = -10000
   /\ exists msg, decode W1 W2 payload = Return (Some msg, [])
                  /\ weight msg = Some (-100)%float)
  /\ (slice payload 6 10 = [0xFF; 0xFF; 0xD8; 0xF1] ->
      int_from_bytes_signed (slice payload 6 10) = -9999
      /\ exists msg, decode W1 W2 payload = Return (Some msg, [])
                     /\ weight msg = Some (-99.99)%float).
Proof.
  intros H H0 H1.
  rewrite (decode_20 W1 W2 payload H), (markers_match _ _ _ _ H0 H1).
  rewrite (decode_ultra_message_20 payload H).
  clear H0 H1. explode payload H.
  split; intros Hs; rewrite Hs; (split; [reflexivity|]);
    eexists; (split; [reflexivity|]);
    unfold ultra_record, weight; eval_seq_ops;
    change (slice _ 6 10) with [b6; b7; b8; b9] in Hs;
    injection Hs as -> -> -> ->; reflexivity.
Qed.

Lemma C6_ultra_negative_weight_witness :
  (exists msg,
      decode sample_byte1 sample_byte2 ultra_frame_m10000
      = Return (Some msg, [])
      /\ weight msg = Some (-100)%float)
  /\ (exists msg,
         decode sample_byte1 sample_byte2 ultra_frame_m9999
         = Return (Some msg, [])
         /\ weight msg = Some (-99.99)%float).
Proof.
  split.
  - apply (proj1 (C6_ultra_negative_weight sample_byte1 sample_byte2
                    ultra_frame_m10000 eq_refl eq_refl eq_refl)).
    reflexivity.
  - apply (proj2 (C6_ultra_negative_weight sample_byte1 sample_byte2
                    ultra_frame_m9999 eq_refl eq_refl eq_refl)).
    reflexivity.
Defined.

(** C6 as stated fails: the frame carries 0xFFFFD8F1 at offsets 6 to 9, which
    is -9999, and its decoded weight is -99.99, which is not -100.0. *)
Lemma C6_counterexample :
  length ultra_frame_m9999 = 20%nat
  /\ slice ultra_frame_m9999 6 10 = [0xFF; 0xFF; 0xD8; 0xF1]
  /\ int_from_bytes (slice ultra_frame_m9999 6 10) = 0xFFFFD8F1
  /\ int_from_bytes_signed (slice ultra_frame_m9999 6 10) = -9999
  /\ decode sample_byte1 sample_byte2 ultra_frame_m9999
     = Return (Some (ultra_record ultra_frame_m9999), [])
  /\ weight (ultra_record ultra_frame_m9999) = Some (-99.99)%float
  /\ PrimFloat.eqb (-99.99) (-100) = false.
Proof. repeat split. Qed.

(** C10: on a 20-byte buffer that starts with 0x55 0xAA every index the
    Ultra decoder reads is in bounds and the slice has its four bytes, so the
    body of its [try] raises nothing: [decode] returns the fully populated
    record with an empty leftover, never [(None, payload)]. *)
Theorem C10_ultra_no_soft_failure (W1 W2 : Z) (payload : bytearray) :
  length payload = 20%nat ->
  byte_at payload 0 = 0x55 -> byte_at payload 1 = 0xAA ->
  getitem payload 14 = Return (byte_at payload 14)
  /\ getitem payload 15 = Return (byte_at payload 15)
  /\ getitem payload 16 = Return (byte_at payload 16)
  /\ length (slice payload 6 10) = 4%nat
  /\ (forall ex, decode_ultra_body payload <> Raise ex)
  /\ decode W1 W2 payload = Return (Some (ultra_record payload), [])
  /\ decode W1 W2 payload <> Return (None, payload).
Proof.
  intros H H0 H1.
  rewrite (decode_20 W1 W2 payload H), (markers_match _ _ _ _ H0 H1).
  rewrite (decode_ultra_message_20 payload H).
  rewrite (decode_ultra_body_20 payload H).
  repeat split; try discriminate.
  all: clear H0 H1; explode payload H; reflexivity.
Qed.

Lemma C10_ultra_no_soft_failure_witness :
  getitem ultra_frame_m9999 14 = Return (byte_at ultra_frame_m9999 14)
  /\ getitem ultra_frame_m9999 15 = Return (byte_at ultra_frame_m9999 15)
  /\ getitem ultra_frame_m9999 16 = Return (byte_at ultra_frame_m9999 16)
  /\ length (slice ultra_frame_m9999 6 10) = 4%nat
  /\ (forall ex, decode_ultra_body ultra_frame_m9999 <> Raise ex)
  /\ decode sample_byte1 sample_byte2 ultra_frame_m9999
     = Return (Some (ultra_record ultra_frame_m9999), [])
  /\ decode sample_byte1 sample_byte2 ultra_frame_m9999
     <> Return (None, ultra_frame_m9999).
Proof.
  apply (C10_ultra_no_soft_failure sample_byte1 sample_byte2 ultra_frame_m9999).
  - reflexivity.
  - reflexivity.
  - reflexivity.
Defined.

(** C8: [decode_ultra_message] returns on every buffer and raises nothing;
    whatever the body of its [try] raises becomes the result
    [(None, payload)], with the buffer as it was.  The Mini decoder does
    raise: on twenty bytes with a wrong checksum, [BookooMessage.__init__]
    raises the checksum error. *)
Theorem C8_ultra_soft_failure (payload : bytearray) :
  (exists r, decode_ultra_message payload = Return r)
  /\ (forall ex, decode_ultra_body payload = Raise ex ->
                 decode_ultra_message payload = Return (None, payload))
  /\ (length payload = 20%nat -> ~ checksum_ok payload ->
      BookooMessage_init payload
      = Raise (BookooMessageError payload "Checksum mismatch")).
Proof.
  split; [|split].
  - unfold decode_ultra_message.
    destruct (decode_ultra_body payload); cbn; eexists; reflexivity.
  - intros ex Hex. unfold decode_ultra_message. rewrite Hex. reflexivity.
  - intros H Hbad. rewrite (BookooMessage_init_20 payload H).
    unfold checksum_ok in Hbad.
    destruct (Z.eqb_spec (xor_fold (removelast payload)) (last payload 0));
      [contradiction | reflexivity].
Qed.

Lemma C8_ultra_soft_failure_witness :
  decode_ultra_message ultra_truncated = Return (None, ultra_truncated).
Proof.
  apply (proj1 (proj2 (C8_ultra_soft_failure ultra_truncated)) IndexError).
  reflexivity.
Defined.

(** ** The entry point *)

(** C3: a buffer whose length is not 20 makes [decode] raise
    [BookooMessageTooShort] below 20 and [BookooMessageTooLong] above, with
    the buffer in the exception, whatever its bytes and the markers are: the
    frame is not classified. *)
Theorem C3_length_check (W1 W2 : Z) (byte_msg : bytearray) :
  length byte_msg <> 20%nat ->
  ((length byte_msg < 20)%nat ->
   decode W1 W2 byte_msg = Raise (BookooMessageTooShort byte_msg))
  /\ ((20 < length byte_msg)%nat ->
      decode W1 W2 byte_msg = Raise (BookooMessageTooLong byte_msg))
  /\ (decode W1 W2 byte_msg = Raise (BookooMessageTooShort byte_msg)
      \/ decode W1 W2 byte_msg = Raise (BookooMessageTooLong byte_msg)).
Proof.
  intros Hlen. unfold decode, len.
  destruct (Z.ltb_spec (Z.of_nat (length byte_msg)) 20) as [Hs|Hs].
  - repeat split; auto. intros; lia.
  - destruct (Z.ltb_spec 20 (Z.of_nat (length byte_msg))) as [Hl|Hl]; [|lia].
    repeat split; auto. intros; lia.
Qed.

Lemma C3_length_check_witness :
  ((length ultra_truncated < 20)%nat ->
   decode sample_byte1 sample_byte2 ultra_truncated
   = Raise (BookooMessageTooShort ultra_truncated))
  /\ ((20 < length ultra_truncated)%nat ->
      decode sample_byte1 sample_byte2 ultra_truncated
      = Raise (BookooMessageTooLong ultra_truncated))
  /\ (decode sample_byte1 sample_byte2 ultra_truncated
      = Raise (BookooMessageTooShort ultra_truncated)
      \/ decode sample_byte1 sample_byte2 ultra_truncated
         = Raise (BookooMessageTooLong ultra_truncated)).
Proof.
  apply (C3_length_check sample_byte1 sample_byte2 ultra_truncated).
  discriminate.
Defined.

(** C5: a 20-byte buffer that starts with 0x55 0xAA goes to the Ultra
    decoder whatever the Mini marker is, also when the Mini marker is
    0x55 0xAA itself and the buffer passes the Mini test. *)
Theorem C5_ultra_first (W1 W2 : Z) (byte_msg : bytearray) :
  length byte_msg = 20%nat ->
  byte_at byte_msg 0 = 0x55 -> byte_at byte_msg 1 = 0xAA ->
  decode W1 W2 byte_msg = decode_ultra_message byte_msg
  /\ is_mini_message 0x55 0xAA byte_msg = Return true
  /\ decode 0x55 0xAA byte_msg = decode_ultra_message byte_msg.
Proof.
  intros H H0 H1.
  rewrite !(decode_20 _ _ byte_msg H), (is_mini_message_20 _ _ byte_msg H).
  rewrite (markers_match _ _ _ _ H0 H1).
  repeat split.
Qed.

Lemma C5_ultra_first_witness :
  decode 0x55 0xAA ultra_frame_m10000 = decode_ultra_message ultra_frame_m10000
  /\ is_mini_message 0x55 0xAA ultra_frame_m10000 = Return true
  /\ decode 0x55 0xAA ultra_frame_m10000
     = decode_ultra_message ultra_frame_m10000.
Proof.
  apply (C5_ultra_first 0x55 0xAA ultra_frame_m10000).
  - reflexivity.
  - reflexivity.
  - reflexivity.
Defined.

(** C7: a 20-byte buffer with neither the Ultra marker nor the Mini marker
    makes [decode] return, not raise: the result is [(None, byte_msg)], the
    buffer as it was. *)
Theorem C7_unrecognized (W1 W2 : Z) (byte_msg : bytearray) :
  length byte_msg = 20%nat ->
  ~ (byte_at byte_msg 0 = 0x55 /\ byte_at byte_msg 1 = 0xAA) ->
  ~ (byte_at byte_msg 0 = W1 /\ byte_at byte_msg 1 = W2) ->
  decode W1 W2 byte_msg = Return (None, byte_msg).
Proof.
  intros H Hu Hm.
  rewrite (decode_20 W1 W2 byte_msg H).
  rewrite (markers_mismatch _ _ _ _ Hu), (markers_mismatch _ _ _ _ Hm).
  reflexivity.
Qed.

Lemma C7_unrecognized_witness :
  decode sample_byte1 sample_byte2 unknown_frame = Return (None, unknown_frame).
Proof.
  apply (C7_unrecognized sample_byte1 sample_byte2 unknown_frame).
  - reflexivity.
  - intros [E _]. discriminate E.
  - intros [E _]. discriminate E.
Defined.

(** * Further properties of the decoders *)

(** ** Indexing and slicing at any length *)

Lemma getitem_nonneg (p : bytearray) (i : Z) :
  0 <= i ->
  getitem p i
  = if i <? len p then Return (nth (Z.to_nat i) p 0) else Raise IndexError.
Proof.
  intros Hi. unfold getitem. cbv zeta.
  assert (E : (i <? 0) = false) by (apply Z.ltb_ge; lia).
  rewrite !E. cbn [orb].
  destruct (Z.ltb_spec i (len p)) as [Hlt|Hge].
  - destruct (Z.leb_spec (len p) i) as [|_]; [lia|].
    rewrite (nth_error_nth' p 0); [reflexivity|].
    unfold len in Hlt. lia.
  - destruct (Z.leb_spec (len p) i) as [_|]; [|lia]. reflexivity.
Qed.

Lemma nth_pred_length_last (p : bytearray) (d : Z) :
  nth (length p - 1) p d = last p d.
Proof.
  induction p as [|b p IH]; [reflexivity|].
  destruct p as [|c p]; [reflexivity|].
  rewrite Nat.sub_1_r in *. cbn [length Nat.pred nth] in *.
  rewrite IH. reflexivity.
Qed.

Lemma getitem_last (p : bytearray) :
  p <> [] -> getitem p (-1) = Return (last p 0).
Proof.
  intros Hp. unfold getitem, len. cbv zeta.
  assert (Hl : (0 < length p)%nat) by (destruct p; [contradiction | cbn; lia]).
  change (-1 <? 0) with true. cbv iota.
  assert (E : (-1 + Z.of_nat (length p) <? 0) = false)
    by (apply Z.ltb_ge; lia).
  assert (F : (Z.of_nat (length p) <=? -1 + Z.of_nat (length p)) = false)
    by (apply Z.leb_gt; lia).
  rewrite E, F. cbn [orb].
  replace (Z.to_nat (-1 + Z.of_nat (length p))) with (length p - 1)%nat by lia.
  rewrite (nth_error_nth' p 0) by lia.
  now rewrite nth_pred_length_last.
Qed.

Lemma slice_all_but_last (p : bytearray) : slice p 0 (-1) = removelast p.
Proof.
  unfold slice, clamp, len.
  change (0 <? 0) with false. change (-1 <? 0) with true. cbv iota.
  replace (Z.to_nat (Z.min 0 (Z.of_nat (length p)))) with 0%nat by lia.
  replace (Z.to_nat (Z.max (-1 + Z.of_nat (length p)) 0))
    with (Nat.pred (length p)) by lia.
  rewrite Nat.sub_0_r. cbn [skipn].
  symmetry. apply removelast_firstn_len.
Qed.

Lemma slice_nonneg (p : bytearray) (a b : Z) :
  0 <= a <= b -> b <= len p ->
  slice p a b = firstn (Z.to_nat b - Z.to_nat a) (skipn (Z.to_nat a) p).
Proof.
  intros Hab Hb. unfold slice, clamp.
  destruct (Z.ltb_spec a 0); [lia|].
  destruct (Z.ltb_spec b 0); [lia|].
  now rewrite !Z.min_l by lia.
Qed.

Ltac solve_len := unfold len; cbn [length]; lia.

(** One [payload[i]] of a chain of reads: out of range it raises, in range
    the chain goes on. *)
Ltac read_or_raise :=
  rewrite getitem_nonneg by lia;
  match goal with
  | |- context [?i <? len ?p] => destruct (Z.ltb_spec i (len p))
  end;
  cbn [bind try_except]; [|try reflexivity].

Ltac read_in_range :=
  rewrite getitem_nonneg by lia;
  match goal with
  | |- context [?i <? len ?p] =>
      replace (i <? len p) with true by (symmetry; apply Z.ltb_lt; solve_len)
  end;
  cbn [bind try_except].

Ltac slice_in_range :=
  rewrite slice_nonneg by (first [lia | solve_len]).

(** ** The classifier and the decoders called on any buffer *)

(** X1: [is_ultra_message] raises on no buffer, empty or of one byte: it is
    the test of the length and of the two leading bytes, and no buffer whose
    length is not 20 is an Ultra message. *)
Theorem X1_is_ultra_message_total (payload : bytearray) :
  is_ultra_message payload
  = Return ((len payload =? 20)
            && (byte_at payload 0 =? 0x55) && (byte_at payload 1 =? 0xAA)).
Proof.
  destruct (Z.eqb_spec (len payload) 20) as [E|N].
  - assert (H : length payload = 20%nat) by (unfold len in E; lia).
    rewrite (is_ultra_message_20 payload H). reflexivity.
  - unfold is_ultra_message, py_and.
    destruct (Z.eqb_spec (len payload) 20); [contradiction|].
    reflexivity.
Qed.

(** X2: [decode_ultra_message] tests neither the length nor the marker of
    its argument.  Called on fewer than 17 bytes it returns
    [(None, payload)]; called on 17 bytes or more, whatever they start with,
    it returns the record of bytes 6 to 9 and 14 to 16 with an empty
    leftover. *)
Theorem X2_ultra_decoder_any_length (payload : bytearray) :
  ((length payload < 17)%nat ->
   decode_ultra_message payload = Return (None, payload))
  /\ ((17 <= length payload)%nat ->
      decode_ultra_message payload = Return (Some (ultra_record payload), [])).
Proof.
  unfold decode_ultra_message, decode_ultra_body. cbv zeta. split; intros H.
  - assert (Hl : len payload < 17) by (unfold len; lia).
    read_or_raise. read_or_raise. read_or_raise. lia.
  - do 17 (destruct payload as [|? payload]; [cbn [length] in H; lia|]).
    clear H.
    do 3 read_in_range.
    slice_in_range.
    change (Z.to_nat 10 - Z.to_nat 6)%nat with 4%nat.
    change (Z.to_nat 6) with 6%nat.
    cbn [firstn skipn].
    rewrite int_from_bytes_signed_4.
    reflexivity.
Qed.

Lemma X2_ultra_decoder_any_length_witness :
  decode_ultra_message ultra_truncated = Return (None, ultra_truncated)
  /\ decode_ultra_message long_buffer
     = Return (Some (ultra_record long_buffer), []).
Proof.
  split.
  - apply (proj1 (X2_ultra_decoder_any_length ultra_truncated)).
    cbn [length ultra_truncated]. lia.
  - apply (proj2 (X2_ultra_decoder_any_length long_buffer)).
    cbn [length long_buffer]. lia.
Defined.

(** X3: [BookooMessage.__init__] tests neither the length nor the marker of
    its argument.  On fewer than 18 bytes it raises [IndexError], whatever
    the checksum; on 18 bytes or more it raises the checksum error when the
    XOR of all the bytes but the last differs from the last, and builds the
    record otherwise. *)
Theorem X3_mini_constructor_any_length (payload : bytearray) :
  ((length payload < 18)%nat -> BookooMessage_init payload = Raise IndexError)
  /\ ((18 <= length payload)%nat ->
      BookooMessage_init payload
      = if xor_fold (removelast payload) =? last payload 0
        then Return (computed_record payload)
        else Raise (BookooMessageError payload "Checksum mismatch")).
Proof.
  unfold BookooMessage_init. cbv zeta. split; intros H.
  - assert (Hl : len payload < 18) by (unfold len; lia).
    do 7 read_or_raise. lia.
  - rewrite slice_all_but_last.
    rewrite getitem_last by (destruct payload; [cbn in H; lia | discriminate]).
    do 18 (destruct payload as [|? payload]; [cbn [length] in H; lia|]).
    clear H.
    do 7 read_in_range.
    do 3 slice_in_range.
    change (Z.to_nat 5 - Z.to_nat 3)%nat with 2%nat.
    change (Z.to_nat 10 - Z.to_nat 8)%nat with 2%nat.
    change (Z.to_nat 13 - Z.to_nat 12)%nat with 1%nat.
    change (Z.to_nat 3) with 3%nat.
    change (Z.to_nat 8) with 8%nat.
    change (Z.to_nat 12) with 12%nat.
    cbn [firstn skipn].
    rewrite !int_from_bytes_2, int_from_bytes_1.
    match goal with
    | |- context [?x =? ?y] =>
        match x with xor_fold _ => destruct (x =? y) end
    end; reflexivity.
Qed.

Lemma X3_mini_constructor_any_length_witness :
  BookooMessage_init ultra_truncated = Raise IndexError
  /\ BookooMessage_init long_buffer
     = if xor_fold (removelast long_buffer) =? last long_buffer 0
       then Return (computed_record long_buffer)
       else Raise (BookooMessageError long_buffer "Checksum mismatch").
Proof.
  split.
  - apply (proj1 (X3_mini_constructor_any_length ultra_truncated)).
    cbn [length ultra_truncated]. lia.
  - apply (proj2 (X3_mini_constructor_any_length long_buffer)).
    cbn [length long_buffer]. lia.
Defined.

(** ** The outcomes of [decode] *)

(** X4: on every buffer [decode] ends in one of five ways: it raises the
    too-short, the too-long or the checksum error, each with the buffer
    itself; or it returns [(None, byte_msg)], the buffer as the leftover; or it
    returns a record with an empty leftover.  It never raises
    [IndexError]. *)
Theorem X4_decode_outcomes (W1 W2 : Z) (byte_msg : bytearray) :
  (decode W1 W2 byte_msg = Raise (BookooMessageTooShort byte_msg)
   \/ decode W1 W2 byte_msg = Raise (BookooMessageTooLong byte_msg)
   \/ decode W1 W2 byte_msg
      = Raise (BookooMessageError byte_msg "Checksum mismatch")
   \/ decode W1 W2 byte_msg = Return (None, byte_msg)
   \/ exists msg, decode W1 W2 byte_msg = Return (Some msg, []))
  /\ decode W1 W2 byte_msg <> Raise IndexError.
Proof.
  assert (Hcases :
    decode W1 W2 byte_msg = Raise (BookooMessageTooShort byte_msg)
    \/ decode W1 W2 byte_msg = Raise (BookooMessageTooLong byte_msg)
    \/ decode W1 W2 byte_msg
       = Raise (BookooMessageError byte_msg "Checksum mismatch")
    \/ decode W1 W2 byte_msg = Return (None, byte_msg)
    \/ exists msg, decode W1 W2 byte_msg = Return (Some msg, [])).
  { destruct (Z.ltb_spec (len byte_msg) 20) as [Hs|Hs].
    - left. unfold decode.
      destruct (Z.ltb_spec (len byte_msg) 20); [reflexivity | lia].
    - destruct (Z.ltb_spec 20 (len byte_msg)) as [Hl|Hl].
      + right; left. unfold decode.
        destruct (Z.ltb_spec (len byte_msg) 20); [lia|].
        destruct (Z.ltb_spec 20 (len byte_msg)); [reflexivity | lia].
      + assert (H : length byte_msg = 20%nat) by (unfold len in *; lia).
        rewrite (decode_20 W1 W2 byte_msg H).
        rewrite (decode_ultra_message_20 byte_msg H).
        rewrite (BookooMessage_init_20 byte_msg H).
        destruct ((byte_at byte_msg 0 =? 85) && (byte_at byte_msg 1 =? 170)).
        * do 4 right. now eexists.
        * destruct ((byte_at byte_msg 0 =? W1) && (byte_at byte_msg 1 =? W2)).
          -- destruct (xor_fold (removelast byte_msg) =? last byte_msg 0);
               cbn [bind].
             ++ do 4 right. now eexists.
             ++ right; right; left. reflexivity.
          -- right; right; right; left. reflexivity. }
  split; [exact Hcases|].
  destruct Hcases as [E|[E|[E|[E|[msg E]]]]]; rewrite E; discriminate.
Qed.

(** ** What the Ultra decoder does not read *)

(** X5: an Ultra frame has no checksum and [decode] reads only its bytes 0,
    1, 6 to 9 and 14 to 16: any change of one of the other bytes goes
    unnoticed, the result is the same. *)
Theorem X5_ultra_unread_bytes
  (W1 W2 : Z) (payload : bytearray) (i : nat) (f : Z -> Z) :
  length payload = 20%nat ->
  byte_at payload 0 = 0x55 -> byte_at payload 1 = 0xAA ->
  In i ultra_unread ->
  decode W1 W2 (update payload i f) = decode W1 W2 payload.
Proof.
  intros H H0 H1 Hin.
  assert (H' : length (update payload i f) = 20%nat)
    by now rewrite update_length.
  assert (Hi : (2 <= i)%nat)
    by (unfold ultra_unread in Hin; cbn [In] in Hin; lia).
  assert (E0 : byte_at (update payload i f) 0 = 0x55)
    by (unfold byte_at; rewrite nth_update_neq by lia; exact H0).
  assert (E1 : byte_at (update payload i f) 1 = 0xAA)
    by (unfold byte_at; rewrite nth_update_neq by lia; exact H1).
  rewrite (decode_20 W1 W2 _ H'), (decode_20 W1 W2 _ H).
  rewrite (markers_match _ _ _ _ E0 E1), (markers_match _ _ _ _ H0 H1).
  rewrite (decode_ultra_message_20 _ H'), (decode_ultra_message_20 _ H).
  clear H' H0 H1 E0 E1 Hi. explode payload H.
  unfold ultra_unread in Hin. cbn [In] in Hin.
  repeat (destruct Hin as [<-|Hin]; [reflexivity|]).
  contradiction.
Qed.

Lemma X5_ultra_unread_bytes_witness :
  decode sample_byte1 sample_byte2
         (update ultra_frame_m10000 12 (fun _ => 0xFF))
  = decode sample_byte1 sample_byte2 ultra_frame_m10000.
Proof.
  apply (X5_ultra_unread_bytes sample_byte1 sample_byte2 ultra_frame_m10000
           12 (fun _ => 0xFF)).
  - reflexivity.
  - reflexivity.
  - reflexivity.
  - unfold ultra_unread. cbn [In]. do 6 right. left. reflexivity.
Defined.

(** ** The ranges of the Mini fields *)

Lemma mini_bounds_all :
  forallb (fun hi => forallb (fun lo => mini_bounds_check hi lo) all_bytes)
          all_bytes = true.
Proof. vm_compute. reflexivity. Qed.

Lemma mini_bounds_bytes (hi lo : Z) :
  is_byte hi -> is_byte lo -> mini_bounds_check hi lo = true.
Proof.
  intros Hhi Hlo.
  pose proof (proj1 (forallb_forall _ _) mini_bounds_all hi (in_all_bytes hi Hhi))
    as H.
  cbv beta in H.
  exact (proj1 (forallb_forall _ _) H lo (in_all_bytes lo Hlo)).
Qed.

Lemma flow_bounds_all : forallb flow_bounds_check all_bytes = true.
Proof. vm_compute. reflexivity. Qed.

Lemma flow_bounds_byte (b : Z) : is_byte b -> flow_bounds_check b = true.
Proof.
  intros Hb.
  exact (proj1 (forallb_forall _ _) flow_bounds_all b (in_all_bytes b Hb)).
Qed.

Ltac split_andb :=
  repeat match goal with
    | H : _ && _ = true |- _ => apply andb_true_iff in H; destruct H
    end.

(** X6: the fields of a decoded Mini frame are bounded by the widths that
    [BookooMessage.__init__] reads: the timer lies in [0, 65.535], the weight
    in [-655.35, 655.35] and the flow rate, read from one byte, in
    [-2.55, 2.55]; weight and flow rate are at most zero under the sign byte
    0x2D and at least zero under any other. *)
Theorem X6_mini_field_ranges (W1 W2 : Z) (payload : bytearray) :
  (W1, W2) <> (0x55, 0xAA) ->
  well_formed payload ->
  length payload = 20%nat ->
  byte_at payload 0 = W1 -> byte_at payload 1 = W2 ->
  checksum_ok payload ->
  exists msg t w f,
    decode W1 W2 payload = Return (Some msg, [])
    /\ timer msg = Some t /\ weight msg = Some w /\ flow_rate msg = Some f
    /\ PrimFloat.leb 0 t = true /\ PrimFloat.leb t 65.535 = true
    /\ PrimFloat.leb (-655.35) w = true /\ PrimFloat.leb w 655.35 = true
    /\ PrimFloat.leb (-2.55) f = true /\ PrimFloat.leb f 2.55 = true
    /\ (if byte_at payload 6 =? 0x2D
        then PrimFloat.leb w 0 else PrimFloat.leb 0 w) = true
    /\ (if byte_at payload 10 =? 0x2D
        then PrimFloat.leb f 0 else PrimFloat.leb 0 f) = true.
Proof.
  intros Hne Hwf H H0 H1 Hok.
  assert (Hdec : decode W1 W2 payload = Return (Some (mini_record payload), [])).
  { rewrite (decode_mini W1 W2 payload Hne H H0 H1).
    unfold checksum_ok in Hok. rewrite Hok, Z.eqb_refl.
    now rewrite (computed_record_mini_record payload H Hwf). }
  rewrite Hdec. clear Hdec Hok H0 H1 Hne.
  explode payload H.
  unfold well_formed in Hwf.
  repeat match goal with
    | H : Forall _ (_ :: _) |- _ => apply Forall_cons_iff in H; destruct H
    end.
  pose proof (mini_bounds_bytes b3 b4 ltac:(assumption) ltac:(assumption)) as Ht.
  pose proof (mini_bounds_bytes b8 b9 ltac:(assumption) ltac:(assumption)) as Hw.
  pose proof (flow_bounds_byte b12 ltac:(assumption)) as Hf.
  unfold mini_bounds_check in Ht, Hw. unfold flow_bounds_check in Hf.
  cbv zeta in Ht, Hw, Hf. split_andb.
  exists (mini_record
            [b0; b1; b2; b3; b4; b5; b6; b7; b8; b9;
             b10; b11; b12; b13; b14; b15; b16; b17; b18; b19]),
    (PrimFloat.div (float_of_int (uint16_be b3 b4)) 1000),
    (signed_by b6 (PrimFloat.div (float_of_int (uint16_be b8 b9)) 100)),
    (signed_by b10 (PrimFloat.div (float_of_int b12) 100)).
  eval_seq_ops. unfold signed_by.
  do 4 (split; [reflexivity|]).
  destruct (b6 =? 45); destruct (b10 =? 45); repeat split; assumption.
Qed.

Lemma X6_mini_field_ranges_witness :
  exists msg t w f,
    decode sample_byte1 sample_byte2 mini_frame_neg = Return (Some msg, [])
    /\ timer msg = Some t /\ weight msg = Some w /\ flow_rate msg = Some f
    /\ PrimFloat.leb 0 t = true /\ PrimFloat.leb t 65.535 = true
    /\ PrimFloat.leb (-655.35) w = true /\ PrimFloat.leb w 655.35 = true
    /\ PrimFloat.leb (-2.55) f = true /\ PrimFloat.leb f 2.55 = true
    /\ (if byte_at mini_frame_neg 6 =? 0x2D
        then PrimFloat.leb w 0 else PrimFloat.leb 0 w) = true
    /\ (if byte_at mini_frame_neg 10 =? 0x2D
        then PrimFloat.leb f 0 else PrimFloat.leb 0 f) = true.
Proof.
  apply (X6_mini_field_ranges sample_byte1 sample_byte2 mini_frame_neg).
  - exact sample_markers_not_ultra.
  - repeat constructor; unfold is_byte; lia.
  - reflexivity.
  - reflexivity.
  - reflexivity.
  - reflexivity.
Defined.

(** X7: a Mini frame whose weight bytes are zero and whose sign byte is 0x2D
    decodes to the weight negative zero: it compares equal to 0.0, and it is
    not the float 0.0. *)
Theorem X7_negative_zero_weight (W1 W2 : Z) (payload : bytearray) :
  (W1, W2) <> (0x55, 0xAA) ->
  length payload = 20%nat ->
  byte_at payload 0 = W1 -> byte_at payload 1 = W2 ->
  checksum_ok payload ->
  byte_at payload 6 = 0x2D ->
  byte_at payload 8 = 0 -> byte_at payload 9 = 0 ->
  exists msg w,
    decode W1 W2 payload = Return (Some msg, [])
    /\ weight msg = Some w
    /\ w = PrimFloat.neg_zero
    /\ PrimFloat.eqb w 0 = true
    /\ w <> PrimFloat.zero.
Proof.
  intros Hne H H0 H1 Hok H6 H8 H9.
  exists (computed_record payload), PrimFloat.neg_zero.
  split; [|split; [|split; [|split]]].
  - rewrite (decode_mini W1 W2 payload Hne H H0 H1).
    unfold checksum_ok in Hok. now rewrite Hok, Z.eqb_refl.
  - unfold computed_record. cbn [weight]. rewrite H6, H8, H9. reflexivity.
  - reflexivity.
  - reflexivity.
  - intros E.
    apply (f_equal (fun x => PrimFloat.ltb (PrimFloat.div 1 x) 0)) in E.
    vm_compute in E. discriminate E.
Qed.

Lemma X7_negative_zero_weight_witness :
  exists msg w,
    decode sample_byte1 sample_byte2 mini_frame_zero = Return (Some msg, [])
    /\ weight msg = Some w
    /\ w = PrimFloat.neg_zero
    /\ PrimFloat.eqb w 0 = true
    /\ w <> PrimFloat.zero.
Proof.
  apply (X7_negative_zero_weight sample_byte1 sample_byte2 mini_frame_zero).
  - exact sample_markers_not_ultra.
  - reflexivity.
  - reflexivity.
  - reflexivity.
  - reflexivity.
  - reflexivity.
  - reflexivity.
  - reflexivity.
Defined.

(** ** The checksum byte of a Mini frame *)

Lemma lxor_is_byte (a b : Z) : is_byte a -> is_byte b -> is_byte (Z.lxor a b).
Proof.
  unfold is_byte. intros [Ha0 Ha] [Hb0 Hb].
  assert (H0 : 0 <= Z.lxor a b) by (apply Z.lxor_nonneg; tauto).
  split; [exact H0|].
  destruct (Z.eq_dec (Z.lxor a b) 0) as [E|N]; [rewrite E; lia|].
  change 256 with (2 ^ 8).
  apply Z.log2_lt_pow2; [lia|].
  pose proof (Z.log2_lxor a b Ha0 Hb0) as Hl.
  assert (La : Z.log2 a < 8).
  { destruct (Z.eq_dec a 0) as [->|]; [cbn; lia|].
    apply Z.log2_lt_pow2; lia. }
  assert (Lb : Z.log2 b < 8).
  { destruct (Z.eq_dec b 0) as [->|]; [cbn; lia|].
    apply Z.log2_lt_pow2; lia. }
  lia.
Qed.

Lemma fold_lxor_is_byte (l : bytearray) (a : Z) :
  is_byte a -> well_formed l -> is_byte (fold_left Z.lxor l a).
Proof.
  revert a; induction l as [|b l IH]; intros a Ha Hl; [exact Ha|].
  apply Forall_cons_iff in Hl. destruct Hl as [Hb Hl].
  cbn [fold_left]. apply IH; [apply lxor_is_byte; assumption | exact Hl].
Qed.

(** X8: for nineteen bytes that start with the Mini marker, the one last
    byte that [decode] accepts is the XOR of the nineteen: the frame with it
    decodes, the frame with any other last byte raises the checksum error.
    That checksum is itself a byte. *)
Theorem X8_checksum_byte (W1 W2 : Z) (body : bytearray) (c : Z) :
  (W1, W2) <> (0x55, 0xAA) ->
  length body = 19%nat ->
  byte_at body 0 = W1 -> byte_at body 1 = W2 ->
  decode W1 W2 (body ++ [xor_fold body])
  = Return (Some (computed_record (body ++ [xor_fold body])), [])
  /\ (c <> xor_fold body ->
      decode W1 W2 (body ++ [c])
      = Raise (BookooMessageError (body ++ [c]) "Checksum mismatch"))
  /\ (well_formed body -> is_byte (xor_fold body)).
Proof.
  intros Hne H H0 H1.
  assert (Hdec : forall x,
    decode W1 W2 (body ++ [x])
    = if xor_fold body =? x
      then Return (Some (computed_record (body ++ [x])), [])
      else Raise (BookooMessageError (body ++ [x]) "Checksum mismatch")).
  { intros x.
    rewrite (decode_mini W1 W2 (body ++ [x]) Hne).
    - now rewrite removelast_last, last_last.
    - rewrite length_app, H. reflexivity.
    - unfold byte_at in *. rewrite app_nth1 by lia. exact H0.
    - unfold byte_at in *. rewrite app_nth1 by lia. exact H1. }
  split; [|split].
  - rewrite Hdec, Z.eqb_refl. reflexivity.
  - intros Hc. rewrite Hdec.
    destruct (Z.eqb_spec (xor_fold body) c); [congruence | reflexivity].
  - intros Hwf. apply fold_lxor_is_byte; [unfold is_byte; lia | exact Hwf].
Qed.

Lemma X8_checksum_byte_witness :
  decode sample_byte1 sample_byte2 (mini_body ++ [xor_fold mini_body])
  = Return (Some (computed_record (mini_body ++ [xor_fold mini_body])), [])
  /\ (0 <> xor_fold mini_body ->
      decode sample_byte1 sample_byte2 (mini_body ++ [0])
      = Raise (BookooMessageError (mini_body ++ [0]) "Checksum mismatch"))
  /\ (well_formed mini_body -> is_byte (xor_fold mini_body)).
Proof.
  apply (X8_checksum_byte sample_byte1 sample_byte2 mini_body 0).
  - exact sample_markers_not_ultra.
  - reflexivity.
  - reflexivity.
  - reflexivity.
Defined.

(** ** What the XOR checksum detects *)

Lemma update_at (l : bytearray) (i : nat) (f g : Z -> Z) :
  f (nth i l 0) = g (nth i l 0) -> update l i f = update l i g.
Proof.
  revert i; induction l as [|b l IH]; intros [|i] E; cbn in *;
    try reflexivity.
  - now rewrite E.
  - now rewrite (IH i E).
Qed.

Lemma nth_removelast (l : bytearray) (i : nat) (d : Z) :
  (S i < length l)%nat -> nth i (removelast l) d = nth i l d.
Proof.
  revert i; induction l as [|b l IH]; intros i Hi; [cbn in Hi; lia|].
  destruct l as [|c l]; [cbn in Hi; lia|].
  destruct i as [|i]; [reflexivity|].
  change (nth i (removelast (c :: l)) d = nth i (c :: l) d).
  apply IH. cbn in *; lia.
Qed.

Lemma lxor_neq (c m : Z) : m <> 0 -> Z.lxor c m <> c.
Proof.
  intros Hm E. apply Hm.
  assert (H : Z.lxor (Z.lxor c m) c = 0)
    by (rewrite E; apply Z.lxor_nilpotent).
  now rewrite (Z.lxor_comm c), Z.lxor_assoc, Z.lxor_nilpotent, Z.lxor_0_r in H.
Qed.

(** A byte replaced by [v] XORs the checksum with the XOR of the old byte
    and [v]. *)
Lemma xor_fold_replace (l : bytearray) (i : nat) (v : Z) :
  (i < length l)%nat ->
  xor_fold (update l i (fun _ => v))
  = Z.lxor (xor_fold l) (Z.lxor (nth i l 0) v).
Proof.
  intros Hi.
  rewrite (update_at l i (fun _ => v)
             (fun b => Z.lxor b (Z.lxor (nth i l 0) v))).
  - now apply xor_fold_update.
  - now rewrite <- Z.lxor_assoc, Z.lxor_nilpotent, Z.lxor_0_l.
Qed.

(** X9: the checksum detects every single-byte error behind the marker: in
    a valid Mini frame, any one of bytes 2 to 19, the checksum byte included,
    replaced by a different value makes [decode] raise the checksum error. *)
Theorem X9_single_byte_error
  (W1 W2 : Z) (payload : bytearray) (i : nat) (v : Z) :
  (W1, W2) <> (0x55, 0xAA) ->
  length payload = 20%nat ->
  byte_at payload 0 = W1 -> byte_at payload 1 = W2 ->
  checksum_ok payload ->
  (2 <= i < 20)%nat ->
  v <> byte_at payload i ->
  decode W1 W2 (update payload i (fun _ => v))
  = Raise (BookooMessageError (update payload i (fun _ => v))
                              "Checksum mismatch").
Proof.
  intros Hne H H0 H1 Hok Hi Hv.
  assert (H' : length (update payload i (fun _ => v)) = 20%nat)
    by now rewrite update_length.
  rewrite (decode_mini W1 W2 _ Hne H').
  2: unfold byte_at; rewrite nth_update_neq by lia; exact H0.
  2: unfold byte_at; rewrite nth_update_neq by lia; exact H1.
  assert (Hbad : (xor_fold (removelast (update payload i (fun _ => v)))
                  =? last (update payload i (fun _ => v)) 0) = false).
  { apply Z.eqb_neq. unfold checksum_ok in Hok.
    destruct (Nat.eq_dec i 19) as [->|Hi19].
    - clear H' H0 H1 Hne Hi. explode payload H.
      revert Hok Hv. eval_seq_ops. cbn [update removelast last].
      intros Hok Hv. rewrite Hok. congruence.
    - rewrite removelast_update, last_update by lia.
      rewrite xor_fold_replace.
      + rewrite Hok. apply lxor_neq.
        rewrite nth_removelast by lia.
        intros E. apply Z.lxor_eq in E. unfold byte_at in Hv. congruence.
      + assert (Hl : length (removelast payload) = 19%nat).
        { clear - H. explode payload H. reflexivity. }
        lia. }
  rewrite Hbad. reflexivity.
Qed.

Lemma X9_single_byte_error_witness :
  decode sample_byte1 sample_byte2 (update mini_frame 19 (fun _ => 0))
  = Raise (BookooMessageError (update mini_frame 19 (fun _ => 0))
                              "Checksum mismatch").
Proof.
  apply (X9_single_byte_error sample_byte1 sample_byte2 mini_frame 19 0).
  - exact sample_markers_not_ultra.
  - reflexivity.
  - reflexivity.
  - reflexivity.
  - reflexivity.
  - lia.
  - discriminate.
Defined.

(** X10: the checksum does not detect the same bit flipped in two bytes: in
    a valid Mini frame, bit [k] flipped in two different bytes among bytes 2
    to 18 gives a different frame that [decode] accepts, and decodes to the
    record of the corrupted bytes. *)
Theorem X10_double_flip_undetected
  (W1 W2 : Z) (payload : bytearray) (i j : nat) (k : Z) :
  (W1, W2) <> (0x55, 0xAA) ->
  length payload = 20%nat ->
  byte_at payload 0 = W1 -> byte_at payload 1 = W2 ->
  checksum_ok payload ->
  (2 <= i < 19)%nat -> (2 <= j < 19)%nat -> i <> j -> 0 <= k < 8 ->
  flip_bit (flip_bit payload i k) j k <> payload
  /\ decode W1 W2 (flip_bit (flip_bit payload i k) j k)
     = Return (Some (computed_record (flip_bit (flip_bit payload i k) j k)),
               []).
Proof.
  intros Hne H H0 H1 Hok Hi Hj Hij Hk.
  split.
  - intros E. apply (f_equal (fun l => nth i l 0)) in E.
    unfold flip_bit in E.
    rewrite nth_update_neq, nth_update_eq in E by lia.
    exact (lxor_bit_neq _ k (proj1 Hk) E).
  - assert (H' : length (flip_bit (flip_bit payload i k) j k) = 20%nat)
      by (unfold flip_bit; now rewrite !update_length).
    rewrite (decode_mini W1 W2 _ Hne H').
    2: unfold byte_at, flip_bit; rewrite !nth_update_neq by lia; exact H0.
    2: unfold byte_at, flip_bit; rewrite !nth_update_neq by lia; exact H1.
    assert (Hl : length (removelast payload) = 19%nat).
    { clear - H. explode payload H. reflexivity. }
    unfold flip_bit at 1 2 3 4.
    rewrite !removelast_update, !last_update by (rewrite ?update_length; lia).
    rewrite !xor_fold_update by (rewrite ?update_length; lia).
    rewrite Z.lxor_assoc, Z.lxor_nilpotent, Z.lxor_0_r.
    unfold checksum_ok in Hok. rewrite Hok, Z.eqb_refl. reflexivity.
Qed.

Lemma X10_double_flip_undetected_witness :
  flip_bit (flip_bit mini_frame 8 0) 9 0 <> mini_frame
  /\ decode sample_byte1 sample_byte2 (flip_bit (flip_bit mini_frame 8 0) 9 0)
     = Return (Some (computed_record (flip_bit (flip_bit mini_frame 8 0) 9 0)),
               []).
Proof.
  apply (X10_double_flip_undetected sample_byte1 sample_byte2 mini_frame 8 9 0).
  - exact sample_markers_not_ultra.
  - reflexivity.
  - reflexivity.
  - reflexivity.
  - reflexivity.
  - lia.
  - lia.
  - discriminate.
  - lia.
Defined.

(** ** The sign of the Ultra weight *)

(** X11: the weight of an Ultra frame is a 32-bit two's-complement integer
    over 100.0: the integer lies in [-2^31, 2^31), it is negative exactly
    when the top bit of byte 6 is set, and modulo 2^32 it is the unsigned
    big-endian value of bytes 6 to 9. *)
Theorem X11_ultra_raw_weight (W1 W2 : Z) (payload : bytearray) :
  well_formed payload ->
  length payload = 20%nat ->
  byte_at payload 0 = 0x55 -> byte_at payload 1 = 0xAA ->
  exists msg raw,
    decode W1 W2 payload = Return (Some msg, [])
    /\ weight msg = Some (PrimFloat.div (float_of_int raw) 100)
    /\ raw = int_from_bytes_signed (slice payload 6 10)
    /\ - 2 ^ 31 <= raw < 2 ^ 31
    /\ (raw < 0 <-> 0x80 <= byte_at payload 6)
    /\ raw mod 2 ^ 32 = int_from_bytes (slice payload 6 10).
Proof.
  intros Hwf H H0 H1.
  rewrite (decode_20 W1 W2 payload H), (markers_match _ _ _ _ H0 H1).
  rewrite (decode_ultra_message_20 payload H).
  clear H0 H1. explode payload H.
  unfold well_formed in Hwf.
  repeat match goal with
    | H : Forall _ (_ :: _) |- _ => apply Forall_cons_iff in H; destruct H
    end.
  exists (ultra_record
            [b0; b1; b2; b3; b4; b5; b6; b7; b8; b9;
             b10; b11; b12; b13; b14; b15; b16; b17; b18; b19]),
    (int32_be b6 b7 b8 b9).
  eval_seq_ops.
  rewrite int_from_bytes_signed_4.
  do 3 (split; [reflexivity|]).
  unfold int_from_bytes. cbn [fold_left].
  unfold int32_be, is_byte in *. cbv zeta.
  destruct (Z.ltb_spec (b6 * 2 ^ 24 + b7 * 2 ^ 16 + b8 * 2 ^ 8 + b9) (2 ^ 31))
    as [Hu|Hu].
  - split; [lia|]. split; [lia|].
    rewrite Z.mod_small; lia.
  - split; [lia|]. split; [lia|].
    replace (b6 * 2 ^ 24 + b7 * 2 ^ 16 + b8 * 2 ^ 8 + b9 - 2 ^ 32)
      with (b6 * 2 ^ 24 + b7 * 2 ^ 16 + b8 * 2 ^ 8 + b9 + (-1) * 2 ^ 32)
      by lia.
    rewrite Z.mod_add by lia.
    rewrite Z.mod_small; lia.
Qed.

Lemma X11_ultra_raw_weight_witness :
  exists msg raw,
    decode sample_byte1 sample_byte2 ultra_frame_m10000
    = Return (Some msg, [])
    /\ weight msg = Some (PrimFloat.div (float_of_int raw) 100)
    /\ raw = int_from_bytes_signed (slice ultra_frame_m10000 6 10)
    /\ - 2 ^ 31 <= raw < 2 ^ 31
    /\ (raw < 0 <-> 0x80 <= byte_at ultra_frame_m10000 6)
    /\ raw mod 2 ^ 32 = int_from_bytes (slice ultra_frame_m10000 6 10).
Proof.
  apply (X11_ultra_raw_weight sample_byte1 sample_byte2 ultra_frame_m10000).
  - repeat constructor; unfold is_byte; lia.
  - reflexivity.
  - reflexivity.
  - reflexivity.
Defined.

(** ** Sample frames, evaluated *)

Example decode_mini_frame :
  decode sample_byte1 sample_byte2 mini_frame
  = Return (Some {| timer := Some 2.56%float;
                    unit := 1;
                    weight_symbol := Some 1;
                    weight := Some 123.45%float;
                    flow_symbol := Some (-1);
                    flow_rate := Some (-1.5)%float;
                    battery := 87;
                    standby_time := 5;
                    buzzer_gear := 2;
                    flow_rate_smoothing := Some 1 |},
            []).
Proof. reflexivity. Qed.

Example decode_mini_frame_neg :
  decode sample_byte1 sample_byte2 mini_frame_neg
  = Return (Some {| timer := Some 2.56%float;
                    unit := 1;
                    weight_symbol := Some (-1);
                    weight := Some (-123.45)%float;
                    flow_symbol := Some (-1);
                    flow_rate := Some (-1.5)%float;
                    battery := 87;
                    standby_time := 5;
                    buzzer_gear := 2;
                    flow_rate_smoothing := Some 1 |},
            []).
Proof. reflexivity. Qed.

Example decode_ultra_frame_m10000 :
  decode sample_byte1 sample_byte2 ultra_frame_m10000
  = Return (Some {| timer := None;
                    unit := 0;
                    weight_symbol := None;
                    weight := Some (-100)%float;
                    flow_symbol := None;
                    flow_rate := None;
                    battery := 80;
                    standby_time := 10;
                    buzzer_gear := 3;
                    flow_rate_smoothing := None |},
            []).
Proof. reflexivity. Qed.

Example decode_ultra_truncated :
  decode_ultra_body ultra_truncated = Raise IndexError
  /\ decode_ultra_message ultra_truncated = Return (None, ultra_truncated).
Proof. split; reflexivity. Qed.
